(** * Shopper analytics ETL: a shallow embedding of the event pipeline

    The development follows two scripts of the repository:

    - [etl_pipeline.py]: [extract_from_s3], [transform_events],
      [validate_data_quality], [load_to_redshift] and [run_etl] of
      [ShopperETLPipeline];
    - [data_generator.py]: [generate_shopper_event] and
      [generate_batch_events] of [ShopperEventGenerator].

    [data_quality.py] only configures and calls the validation framework
    and has no part here.

    A Spark DataFrame is a list of rows in iteration order.  Every column
    of the schema is nullable ([StructField(..., True)]), so every field
    is an [option].  A [DoubleType] column holds binary64 numbers, the
    primitive [float]: sums and means round as the engine's do.  The
    decimal numbers of the JSON text are rationals, converted to binary64
    when the schema is applied.  [conversion_rate] alone is kept as the
    exact quotient of its two counts. *)

From Stdlib Require Import ZArith QArith Qround Lia Lqa Ascii String.
From Stdlib Require Import PrimFloat Uint63.
From stdpp Require Import base decidable option list strings pretty.

Set Warnings "-clear-no-such-hyp,-inexact-float".

Local Open Scope Z_scope.

(** ** Timestamps and dates *)

Record Timestamp := mkTimestamp {
  ts_year : Z; ts_month : Z; ts_day : Z;
  ts_hour : Z; ts_minute : Z; ts_second : Z
}.

Record Date := mkDate { d_year : Z; d_month : Z; d_day : Z }.

#[global] Instance Date_eq_dec : EqDecision Date.
Proof. solve_decision. Defined.

(** ** Rows

    [Event T D] is a record of the eleven schema columns.  [T] is the type
    of the [timestamp] column and [D] the type of the two number columns:
    the text and the decimal numbers of the JSON document before the
    schema is applied, a [Timestamp] and binary64 numbers after. *)

Record Event (T D : Type) := mkEvent {
  event_id : option string;
  user_id : option string;
  session_id : option string;
  timestamp : option T;
  event_type : option string;
  product_id : option string;
  category : option string;
  price : option D;
  device_type : option string;
  ad_campaign_id : option string;
  revenue : option D
}.

Arguments mkEvent {T D}.
Arguments event_id {T D}.
Arguments user_id {T D}.
Arguments session_id {T D}.
Arguments timestamp {T D}.
Arguments event_type {T D}.
Arguments product_id {T D}.
Arguments category {T D}.
Arguments price {T D}.
Arguments device_type {T D}.
Arguments ad_campaign_id {T D}.
Arguments revenue {T D}.

(** A line of the JSON input, and a row of [raw_df]. *)
Definition JsonEvent := Event string Q.
Definition Row := Event Timestamp float.

(** ** The column functions of [pyspark.sql.functions] used by the pipeline *)

Module F.

(** [to_date(col)]: the calendar date of a timestamp, null on null. *)
Definition to_date (c : option Timestamp) : option Date :=
  t ← c; Some (mkDate (ts_year t) (ts_month t) (ts_day t)).

(** [hour(col)]: the hour of a timestamp, null on null. *)
Definition hour (c : option Timestamp) : option Z :=
  t ← c; Some (ts_hour t).

(** [col == lit]: three-valued, null when the column is null. *)
Definition eq_lit (c : option string) (lit : string) : option bool :=
  s ← c; Some (bool_decide (s = lit)).

(** [col.isNotNull()] and [col.isNull()] are never null themselves. *)
Definition isNotNull {A} (c : option A) : option bool :=
  Some (match c with Some _ => true | None => false end).

Definition isNull {A} (c : option A) : option bool :=
  Some (match c with Some _ => false | None => true end).

(** [col > lit] on a long column. *)
Definition gt_lit (c : option Z) (lit : Z) : option bool :=
  n ← c; Some (lit <? n).

(** [when(cond, a).otherwise(b)]: [a] where the condition is true, [b]
    where it is false or null. *)
Definition when_otherwise {A} (cond : option bool) (a b : A) : A :=
  match cond with Some true => a | _ => b end.

(** [l / r] on long columns is a double, kept here as the exact quotient;
    null when an operand is null or the divisor is zero. *)
Definition div (l r : option Z) : option Q :=
  n ← l; d ← r;
  if decide (d = 0) then None else Some (inject_Z n / inject_Z d)%Q.

(** [count("*")]: the number of rows. *)
Definition count {A} (rows : list A) : Z := Z.of_nat (length rows).

(** The non-null values of a column. *)
Definition non_null {A} (col : list (option A)) : list A := omap id col.

(** [sum(col)]: the sum of the non-null values, null when there is none. *)
Definition sum_long (col : list (option Z)) : option Z :=
  match non_null col with
  | [] => None
  | vs => Some (foldr Z.add 0 vs)
  end.

(** On a double column the sum is accumulated in binary64, from zero, one
    value after the other in the order the rows are handed over: every
    addition rounds. *)
Definition sum_binary64 (vs : list float) : float :=
  foldl PrimFloat.add 0%float vs.

Definition sum_double (col : list (option float)) : option float :=
  match non_null col with
  | [] => None
  | vs => Some (sum_binary64 vs)
  end.

(** A count as a double. *)
Definition double_of_long (n : Z) : float :=
  PrimFloat.of_uint63 (Uint63.of_Z n).

(** [avg(col)]: the binary64 sum of the non-null values divided by their
    number, null when there is none. *)
Definition avg (col : list (option float)) : option float :=
  match non_null col with
  | [] => None
  | vs =>
      Some (PrimFloat.div (sum_binary64 vs)
              (double_of_long (Z.of_nat (length vs))))
  end.

(** The distinct values of a list, each at its first occurrence. *)
Fixpoint distinct {K} `{EqDecision K} (l : list K) : list K :=
  match l with
  | [] => []
  | k :: t => k :: filter (λ k', k' ≠ k) (distinct t)
  end.

(** [countDistinct(col)]: the number of distinct non-null values. *)
Definition countDistinct {K} `{EqDecision K} (col : list (option K)) : Z :=
  Z.of_nat (length (distinct (non_null col))).

(** [first(col)]: the value of the first row handed over, null or not.
    Which row of a group comes first is the engine's choice; here the rows
    of a group keep the order of the frame, and no property below depends
    on that order. *)
Definition first {A} (col : list (option A)) : option A :=
  match col with
  | [] => None
  | v :: _ => v
  end.

(** [df.groupBy(key)]: one group per distinct key (null is a key like any
    other), holding the rows of that key in iteration order. *)
Definition groupBy {K A} `{EqDecision K} (key : A → K) (df : list A)
  : list (K * list A) :=
  (λ k, (k, filter (λ r, key r = k) df)) <$> distinct (key <$> df).

End F.

(** ** Reading the input: [extract_from_s3]

    [spark.read.json(path, schema)] runs in the reader's default
    (permissive) mode: a field whose text does not convert to the type the
    schema declares becomes null and the record is kept.  The conversion of
    text to [TimestampType] belongs to the engine; [extract_from_s3] takes
    it as the parameter [cast].  A path that cannot be read is outside
    this model: the frame is what the reader delivers when it returns. *)

(** The binary64 number of a decimal number of the JSON text: the quotient
    of numerator and denominator, rounded once; this is the nearest
    binary64 number while both are below [2^53]. *)
Definition double_of_Z (z : Z) : float :=
  match z with
  | Z0 => 0%float
  | Zpos _ => PrimFloat.of_uint63 (Uint63.of_Z z)
  | Zneg p => PrimFloat.opp (PrimFloat.of_uint63 (Uint63.of_Z (Zpos p)))
  end.

Definition double_of_decimal (q : Q) : float :=
  PrimFloat.div (double_of_Z (Qnum q)) (double_of_Z (Zpos (Qden q))).

Definition extract_from_s3 (cast : string → option Timestamp)
    (s3_lines : list JsonEvent) : list Row :=
  (λ j, mkEvent (event_id j) (user_id j) (session_id j)
                (timestamp j ≫= cast)
                (event_type j) (product_id j) (category j)
                (double_of_decimal <$> price j)
                (device_type j) (ad_campaign_id j)
                (double_of_decimal <$> revenue j)) <$> s3_lines.

(** An ISO-8601 reader for [cast], of the full form only: [YYYY-MM-DD],
    [T] or a blank, [hh:mm:ss], then an optional fraction and an optional
    [Z].  The engine's own cast accepts more (a date alone, zone offsets);
    this reader is used on closed inputs of the full form and on text
    that is no date at all. *)

Module Iso8601.

Definition digit (c : ascii) : option Z :=
  let n := Z.of_nat (nat_of_ascii c) in
  if decide (48 ≤ n ≤ 57) then Some (n - 48) else None.

Fixpoint number (width : nat) (acc : Z) (cs : list ascii)
  : option (Z * list ascii) :=
  match width with
  | O => Some (acc, cs)
  | S w =>
      match cs with
      | [] => None
      | c :: rest => d ← digit c; number w (10 * acc + d) rest
      end
  end.

Definition expect (allowed : list ascii) (cs : list ascii)
  : option (list ascii) :=
  match cs with
  | [] => None
  | c :: rest => if decide (c ∈ allowed) then Some rest else None
  end.

Fixpoint digits (cs : list ascii) : list ascii :=
  match cs with
  | [] => []
  | c :: rest => match digit c with Some _ => digits rest | None => cs end
  end.

Definition fraction (cs : list ascii) : option (list ascii) :=
  match cs with
  | c :: rest =>
      if decide (c = "."%char)
      then (match rest with
            | [] => None
            | d :: _ =>
                match digit d with Some _ => Some (digits rest) | None => None end
            end)
      else Some cs
  | [] => Some cs
  end.

Definition zone (cs : list ascii) : option () :=
  match cs with
  | [] => Some ()
  | [c] => if decide (c = "Z"%char) then Some () else None
  | _ => None
  end.

Definition leap (y : Z) : bool :=
  bool_decide (y mod 4 = 0 ∧ (y mod 100 ≠ 0 ∨ y mod 400 = 0)).

Definition days_in_month (y m : Z) : Z :=
  if decide (m = 2) then (if leap y then 29 else 28)
  else if decide (m ∈ [4; 6; 9; 11]) then 30 else 31.

Definition parse (s : string) : option Timestamp :=
  '(y, cs) ← number 4 0 (String.list_ascii_of_string s);
  cs ← expect ["-"%char] cs;
  '(m, cs) ← number 2 0 cs;
  cs ← expect ["-"%char] cs;
  '(d, cs) ← number 2 0 cs;
  cs ← expect ["T"%char; " "%char] cs;
  '(h, cs) ← number 2 0 cs;
  cs ← expect [":"%char] cs;
  '(mi, cs) ← number 2 0 cs;
  cs ← expect [":"%char] cs;
  '(sec, cs) ← number 2 0 cs;
  cs ← fraction cs;
  zone cs;;
  guard (1 ≤ m ≤ 12 ∧ 1 ≤ d ≤ days_in_month y m
         ∧ h ≤ 23 ∧ mi ≤ 59 ∧ sec ≤ 59);;
  Some (mkTimestamp y m d h mi sec).

End Iso8601.

(** ** [transform_events] *)

(** A row of [transformed_df]: the row of [raw_df] and the four columns
    added by [withColumn]. *)
Record EnrichedRow := mkEnriched {
  raw : Row;
  date : option Date;
  hour : option Z;
  is_purchase : Z;
  is_ad_driven : Z
}.

Record SessionMetric := mkSessionMetric {
  sm_user_id : option string;
  sm_session_id : option string;
  sm_date : option Date;
  total_events : Z;
  purchases : option Z;
  session_revenue : option float;
  unique_products_viewed : Z;
  sm_device_type : option string
}.

Record ProductMetric := mkProductMetric {
  pm_product_id : option string;
  pm_category : option string;
  pm_date : option Date;
  total_views : Z;
  total_purchases : option Z;
  total_revenue : option float;
  avg_price : option float;
  conversion_rate : option Q
}.

(** The dictionary [transform_events] returns. *)
Record Transformed := mkTransformed {
  events : list EnrichedRow;
  session_metrics : list SessionMetric;
  product_metrics : list ProductMetric
}.

(** The four [withColumn] calls, on one row. *)
Definition add_derived_columns (r : Row) : EnrichedRow :=
  mkEnriched r
    (F.to_date (timestamp r))
    (F.hour (timestamp r))
    (F.when_otherwise (F.eq_lit (event_type r) "purchase") 1 0)
    (F.when_otherwise (F.isNotNull (ad_campaign_id r)) 1 0).

Definition session_key (e : EnrichedRow)
  : option string * option string * option Date :=
  (user_id (raw e), session_id (raw e), date e).

Definition product_key (e : EnrichedRow)
  : option string * option string * option Date :=
  (product_id (raw e), category (raw e), date e).

(** The [agg] of the session metrics, on one group. *)
Definition session_agg
    (g : (option string * option string * option Date) * list EnrichedRow)
  : SessionMetric :=
  let '((u, s, d), rows) := g in
  mkSessionMetric u s d
    (F.count rows)
    (F.sum_long ((λ e, Some (is_purchase e)) <$> rows))
    (F.sum_double ((λ e, revenue (raw e)) <$> rows))
    (F.countDistinct ((λ e, product_id (raw e)) <$> rows))
    (F.first ((λ e, device_type (raw e)) <$> rows)).

(** The [conversion_rate] column added to the aggregated product frame:
    [when(total_views > 0, total_purchases / total_views).otherwise(0)]. *)
Definition conversion_rate_col (total_views : Z) (total_purchases : option Z)
  : option Q :=
  F.when_otherwise (F.gt_lit (Some total_views) 0)
    (F.div total_purchases (Some total_views))
    (Some 0%Q).

(** The [agg] of the product metrics and the [conversion_rate] column, on
    one group. *)
Definition product_agg
    (g : (option string * option string * option Date) * list EnrichedRow)
  : ProductMetric :=
  let '((p, c, d), rows) := g in
  let total_views := F.count rows in
  let total_purchases := F.sum_long ((λ e, Some (is_purchase e)) <$> rows) in
  mkProductMetric p c d
    total_views
    total_purchases
    (F.sum_double ((λ e, revenue (raw e)) <$> rows))
    (F.avg ((λ e, price (raw e)) <$> rows))
    (conversion_rate_col total_views total_purchases).

(** The two aggregated frames, as functions of [transformed_df]. *)
Definition session_metrics_of (transformed_df : list EnrichedRow)
  : list SessionMetric :=
  session_agg <$> F.groupBy session_key transformed_df.

Definition product_metrics_of (transformed_df : list EnrichedRow)
  : list ProductMetric :=
  product_agg <$> F.groupBy product_key transformed_df.

Definition transform_events (raw_df : list Row) : Transformed :=
  let transformed_df := add_derived_columns <$> raw_df in
  mkTransformed transformed_df
    (session_metrics_of transformed_df)
    (product_metrics_of transformed_df).

(** ** Effects: standard output, the warehouse and exceptions *)

Inductive exn := ValueError (msg : string).

(** The tables of the [analytics] schema have the columns of the three
    dataframes, so the warehouse is a [Transformed] of all rows loaded. *)
Record World := mkWorld {
  stdout : list string;
  redshift : Transformed
}.

Definition Py (A : Type) : Type := World → World * (exn + A).

#[global] Instance Py_ret : MRet Py := λ A a w, (w, inr a).

#[global] Instance Py_bind : MBind Py := λ A B k m w,
  match m w with
  | (w', inl e) => (w', inl e)
  | (w', inr a) => k a w'
  end.

Definition print (line : string) : Py () :=
  λ w, (mkWorld (stdout w ++ [line]) (redshift w), inr ()).

Definition raise {A} (e : exn) : Py A := λ w, (w, inl e).

(** [when c: body] with no [else]. *)
Definition when_ (c : Prop) `{Decision c} (body : Py ()) : Py () :=
  if decide c then body else mret ().

Module DataFrame.

(** [df.filter(cond)] keeps the rows where the condition is true. *)
Definition filter {A} (cond : A → option bool) (df : list A) : list A :=
  base.filter (λ r, cond r = Some true) df.

(** [df.write...mode("append").save()] into one table, for a save that
    returns: the rows are added after those the table holds.  A save that
    raises is outside this model. *)
Definition append_events (df : list EnrichedRow) : Py () :=
  λ w, (mkWorld (stdout w)
          (mkTransformed (events (redshift w) ++ df)
             (session_metrics (redshift w))
             (product_metrics (redshift w))), inr ()).

Definition append_session_metrics (df : list SessionMetric) : Py () :=
  λ w, (mkWorld (stdout w)
          (mkTransformed (events (redshift w))
             (session_metrics (redshift w) ++ df)
             (product_metrics (redshift w))), inr ()).

Definition append_product_metrics (df : list ProductMetric) : Py () :=
  λ w, (mkWorld (stdout w)
          (mkTransformed (events (redshift w))
             (session_metrics (redshift w))
             (product_metrics (redshift w) ++ df)), inr ()).

End DataFrame.

(** ** [validate_data_quality] *)

Definition validate_data_quality (df : list EnrichedRow) : Py () :=
  let total_records := F.count df in
  let null_user_ids :=
    F.count (DataFrame.filter (λ r, F.isNull (user_id (raw r))) df) in
  when_ (null_user_ids > 0)
    (print ("Warning: " +:+ pretty null_user_ids
            +:+ " records with null user_id"));;
  when_ (total_records = 0)
    (raise (ValueError "No records found in dataset"));;
  print ("Data quality check passed: " +:+ pretty total_records
         +:+ " records processed").

(** ** [load_to_redshift] and [run_etl] *)

Definition load_to_redshift (dataframes : Transformed) : Py () :=
  DataFrame.append_events (events dataframes);;
  print ("Loaded " +:+ pretty (F.count (events dataframes))
         +:+ " records to events");;
  DataFrame.append_session_metrics (session_metrics dataframes);;
  print ("Loaded " +:+ pretty (F.count (session_metrics dataframes))
         +:+ " records to session_metrics");;
  DataFrame.append_product_metrics (product_metrics dataframes);;
  print ("Loaded " +:+ pretty (F.count (product_metrics dataframes))
         +:+ " records to product_metrics").

Definition run_etl (cast : string → option Timestamp)
    (s3_input : list JsonEvent) : Py () :=
  print "Extracting data from S3...";;
  let raw_df := extract_from_s3 cast s3_input in
  print "Transforming data...";;
  let transformed_data := transform_events raw_df in
  validate_data_quality (events transformed_data);;
  print "Loading to Redshift...";;
  load_to_redshift transformed_data;;
  print "ETL pipeline completed successfully!".

(** ** The event generator: [ShopperEventGenerator]

    The generator reads three sources: the [random] module, the [Faker]
    instance and the clock.  Each is a tape consumed from the front; a call
    takes the next entry and an exhausted tape yields the default. *)

Module Generator.

Record Source := mkSource {
  random_tape : list N;
  faker_tape : list string;
  utcnow : Timestamp
}.

Definition Gen (A : Type) : Type := Source → A * Source.

#[global] Instance Gen_ret : MRet Gen := λ A a s, (a, s).

#[global] Instance Gen_bind : MBind Gen := λ A B k m s,
  let '(a, s') := m s in k a s'.

Definition draw : Gen N := λ s,
  match random_tape s with
  | [] => (0%N, s)
  | d :: rest => (d, mkSource rest (faker_tape s) (utcnow s))
  end.

Definition fake : Gen string := λ s,
  match faker_tape s with
  | [] => (String.EmptyString, s)
  | v :: rest => (v, mkSource (random_tape s) rest (utcnow s))
  end.

(** [random.randint(a, b)]: an integer of [a..b], both ends included. *)
Definition randint (a b : Z) : Gen Z :=
  d ← draw; mret (a + Z.of_N d mod (b - a + 1)).

(** [random.choice(seq)] on a non-empty sequence. *)
Definition choice {A} (default : A) (seq : list A) : Gen A :=
  d ← draw; mret (nth (N.to_nat (d mod N.of_nat (length seq))) seq default).

(** [random.random()]: a value of [0, 1), here on a grid of [2^53]
    points. *)
Definition random : Gen Q :=
  d ← draw; mret (inject_Z (Z.of_N d mod 2 ^ 53) / inject_Z (2 ^ 53))%Q.

(** [random.uniform(a, b)] is [a + (b - a) * random()]. *)
Definition uniform (a b : Q) : Gen Q :=
  r ← random; mret (a + (b - a) * r)%Q.

(** [round(x, 2)] on the exact value of [x]: the nearest multiple of
    [1/100], ties to the even one. *)
Definition round2 (x : Q) : Q :=
  let scaled := (x * 100)%Q in
  let lo := Qfloor scaled in
  let rest := (scaled - inject_Z lo)%Q in
  let n := match (rest ?= 1 # 2)%Q with
           | Lt => lo
           | Gt => lo + 1
           | Eq => if Z.even lo then lo else lo + 1
           end in
  Qred (inject_Z n / 100).

(** [datetime.isoformat()] of a whole second. *)
Definition pad (width : nat) (n : Z) : string :=
  let s := pretty n in
  String.concat String.EmptyString
    (replicate (width - String.length s) "0"%string) +:+ s.

Definition isoformat (t : Timestamp) : string :=
  pad 4 (ts_year t) +:+ "-" +:+ pad 2 (ts_month t) +:+ "-"
  +:+ pad 2 (ts_day t) +:+ "T" +:+ pad 2 (ts_hour t) +:+ ":"
  +:+ pad 2 (ts_minute t) +:+ ":" +:+ pad 2 (ts_second t).

Record Location := mkLocation {
  country : string;
  city : string;
  ip_address : string
}.

(** The dictionary [generate_shopper_event] returns. *)
Record ShopperEvent := mkShopperEvent {
  event_id : string;
  user_id : string;
  session_id : string;
  timestamp : string;
  event_type : string;
  product_id : string;
  category : string;
  price : Q;
  device_type : string;
  location : Location;
  ad_campaign_id : option string;
  revenue : Q
}.

Definition categories : list string :=
  ["Electronics"; "Clothing"; "Books"; "Home"; "Sports"]%string.

Definition event_types : list string :=
  ["page_view"; "add_to_cart"; "purchase"; "search"; "ad_click"]%string.

(** The entries of the dictionary display are evaluated top to bottom; a
    conditional expression evaluates its condition first. *)
Definition generate_shopper_event : Gen ShopperEvent :=
  n ← randint 1000 99999;
  let user_id := ("user_" +:+ pretty n)%string in
  session_id ← fake;
  event_id ← fake;
  now ← (λ s, (utcnow s, s));
  event_type ← choice "page_view"%string event_types;
  p ← randint 1 10000;
  category ← choice "Electronics"%string categories;
  x ← uniform 10 500;
  device_type ← choice "mobile"%string ["mobile"; "desktop"; "tablet"]%string;
  country ← fake;
  city ← fake;
  ip_address ← fake;
  r ← random;
  ad_campaign_id ←
    (if Qlt_le_dec (7 # 10) r
     then c ← randint 1 100; mret (Some ("campaign_" +:+ pretty c)%string)
     else mret None);
  resampled ← choice "page_view"%string event_types;
  revenue ←
    (if decide (resampled = "purchase"%string)
     then y ← uniform 0 500; mret (round2 y)
     else mret 0%Q);
  mret (mkShopperEvent event_id user_id session_id (isoformat now)
          event_type ("prod_" +:+ pretty p)%string category (round2 x)
          device_type (mkLocation country city ip_address)
          ad_campaign_id revenue).

(** [generate_batch_events(count)], without the file it saves. *)
Fixpoint generate_batch_events (count : nat) : Gen (list ShopperEvent) :=
  match count with
  | O => mret []
  | S n =>
      event ← generate_shopper_event;
      events ← generate_batch_events n;
      mret (event :: events)
  end.

(** The document [send_to_kinesis] puts on the stream for an event,
    [json.dumps(event)], as a reader with the schema of [extract_from_s3]
    sees it when it is one line of its input: the schema has no [location]
    column, so that key is dropped.  How the documents of the stream reach
    the input of the pipeline is outside the repository. *)
Definition to_json (e : ShopperEvent) : JsonEvent :=
  mkEvent (Some (event_id e)) (Some (user_id e)) (Some (session_id e))
    (Some (timestamp e)) (Some (event_type e)) (Some (product_id e))
    (Some (category e)) (Some (price e)) (Some (device_type e))
    (ad_campaign_id e) (Some (revenue e)).

End Generator.

(** ** Vocabulary of the statements and worked inputs *)

(** The sum of a column of longs that holds no null. *)
Definition sum_Z (col : list Z) : Z := foldr Z.add 0 col.

(** A session metric with its [device_type] column dropped. *)
Definition without_device_type (m : SessionMetric) : SessionMetric :=
  mkSessionMetric (sm_user_id m) (sm_session_id m) (sm_date m)
    (total_events m) (purchases m) (session_revenue m)
    (unique_products_viewed m) None.

(** A session metric with its [device_type] and [session_revenue] columns
    dropped. *)
Definition without_device_and_revenue (m : SessionMetric) : SessionMetric :=
  mkSessionMetric (sm_user_id m) (sm_session_id m) (sm_date m)
    (total_events m) (purchases m) None
    (unique_products_viewed m) None.

(** Three purchases of one session and one product that differ in their
    revenue, in two orders. *)
Definition row_revenue (id : string) (amount : float) : Row :=
  mkEvent (Some id) (Some "u1") (Some "s1")
    (Some (mkTimestamp 2024 6 1 10 0 0))
    (Some "purchase") (Some "p1") (Some "Electronics") (Some 50%float)
    (Some "mobile") None (Some amount).

Definition frame_ascending : list EnrichedRow :=
  add_derived_columns
    <$> [row_revenue "e1" 0.1; row_revenue "e2" 0.2; row_revenue "e3" 0.3].

Definition frame_descending : list EnrichedRow :=
  add_derived_columns
    <$> [row_revenue "e3" 0.3; row_revenue "e2" 0.2; row_revenue "e1" 0.1].

(** A row whose campaign id is the empty string. *)
Definition row_empty_campaign : Row :=
  mkEvent (Some "e1") (Some "u1") (Some "s1")
    (Some (mkTimestamp 2024 6 1 10 0 0)) (Some "page_view") (Some "p1")
    (Some "Electronics") (Some 50%float) (Some "mobile")
    (Some String.EmptyString) (Some 0%float).

(** A record whose timestamp is not a date, in a batch of its own. *)
Definition event_not_a_date : JsonEvent :=
  mkEvent (Some "e1") (Some "u1") (Some "s1") (Some "not-a-date")
    (Some "purchase") (Some "p1") (Some "Electronics") (Some 50%Q)
    (Some "mobile") None (Some 100%Q).

Definition empty_world : World := mkWorld [] (mkTransformed [] [] []).

(** The sources of a run of the generator: the first [choice] of the
    event type draws [page_view], the second draws [purchase], and the
    revenue drawn is [250]. *)
Definition source_resampled : Generator.Source :=
  Generator.mkSource
    [0; 0; 41; 0; 0; 0; 0; 2; 4503599627370496]%N
    ["sess-1"; "evt-1"; "US"; "Paris"; "10.0.0.1"]%string
    (mkTimestamp 2024 6 1 10 0 0).

(** The purchase of the specification's example, as read from its JSON
    line. *)
Definition event_purchase : JsonEvent :=
  mkEvent (Some "e1") (Some "u1") (Some "s1") (Some "2024-06-01T10:00:00Z")
    (Some "purchase") (Some "p1") (Some "Electronics") (Some 50%Q)
    (Some "mobile") None (Some 100%Q).

Definition row_purchase : Row :=
  mkEvent (Some "e1") (Some "u1") (Some "s1")
    (Some (mkTimestamp 2024 6 1 10 0 0))
    (Some "purchase") (Some "p1") (Some "Electronics") (Some 50%float)
    (Some "mobile") None (Some 100%float).

(** A later page view of the same session, on another device. *)
Definition row_page_view : Row :=
  mkEvent (Some "e2") (Some "u1") (Some "s1")
    (Some (mkTimestamp 2024 6 1 11 30 0))
    (Some "page_view") (Some "p2") (Some "Books") (Some 20%float)
    (Some "desktop") (Some "campaign_7") (Some 0%float).

(** A row whose [user_id] is null. *)
Definition row_null_user : Row :=
  mkEvent (Some "e3") None (Some "s9")
    (Some (mkTimestamp 2024 6 2 8 15 0))
    (Some "search") (Some "p3") (Some "Home") (Some 15%float)
    (Some "tablet") None (Some 0%float).

Definition metric_p1 : ProductMetric :=
  mkProductMetric (Some "p1") (Some "Electronics") (Some (mkDate 2024 6 1))
    1 (Some 1) (Some 100%float) (Some 50%float) (Some 1%Q).

(** ** Vocabulary of the further properties *)

(** The key columns of a session metric and of a product metric. *)
Definition session_key_of (m : SessionMetric)
  : option string * option string * option Date :=
  (sm_user_id m, sm_session_id m, sm_date m).

Definition product_key_of (m : ProductMetric)
  : option string * option string * option Date :=
  (pm_product_id m, pm_category m, pm_date m).

(** A product metric with its two binary64 aggregates dropped. *)
Definition without_double_sums (m : ProductMetric) : ProductMetric :=
  mkProductMetric (pm_product_id m) (pm_category m) (pm_date m)
    (total_views m) (total_purchases m) None None (conversion_rate m).

(** The purchases among the rows of [raw_df]. *)
Definition purchase_rows (raw_df : list Row) : list Row :=
  filter (λ r, event_type r = Some "purchase"%string) raw_df.

(** The warehouse after the tables of [loaded] are appended to it. *)
Definition append_tables (warehouse loaded : Transformed) : Transformed :=
  mkTransformed (events warehouse ++ events loaded)
    (session_metrics warehouse ++ session_metrics loaded)
    (product_metrics warehouse ++ product_metrics loaded).

(** The line [validate_data_quality] prints for the rows with a null
    [user_id], if there are any. *)
Definition null_user_warning (df : list EnrichedRow) : list string :=
  let null_user_ids := F.count (filter (λ r, user_id (raw r) = None) df) in
  if decide (null_user_ids > 0)
  then ["Warning: " +:+ pretty null_user_ids +:+ " records with null user_id"]
  else [].

(** The lines a run of [run_etl] prints when it completes. *)
Definition run_etl_lines (data : Transformed) : list string :=
  ["Extracting data from S3..."; "Transforming data..."]%string
  ++ null_user_warning (events data)
  ++ ["Data quality check passed: " +:+ pretty (F.count (events data))
      +:+ " records processed";
      "Loading to Redshift...";
      "Loaded " +:+ pretty (F.count (events data)) +:+ " records to events";
      "Loaded " +:+ pretty (F.count (session_metrics data))
      +:+ " records to session_metrics";
      "Loaded " +:+ pretty (F.count (product_metrics data))
      +:+ " records to product_metrics";
      "ETL pipeline completed successfully!"]%string.

(** A property of every result of a generator, whatever the sources. *)
Definition post {A} (m : Generator.Gen A) (P : A → Prop) : Prop :=
  ∀ s, P (m s).1.

(** The domains of the fields of a generated event. *)
Definition in_domains (e : Generator.ShopperEvent) : Prop :=
  Generator.event_type e ∈ Generator.event_types
  ∧ Generator.category e ∈ Generator.categories
  ∧ Generator.device_type e ∈ ["mobile"; "desktop"; "tablet"]%string.

Definition in_ranges (e : Generator.ShopperEvent) : Prop :=
  (10 <= Generator.price e <= 500)%Q
  ∧ (0 <= Generator.revenue e <= 500)%Q.

Definition well_identified (e : Generator.ShopperEvent) : Prop :=
  (∃ n, 1000 ≤ n ≤ 99999
        ∧ Generator.user_id e = ("user_" +:+ pretty n)%string)
  ∧ (∃ p, 1 ≤ p ≤ 10000
          ∧ Generator.product_id e = ("prod_" +:+ pretty p)%string)
  ∧ (Generator.ad_campaign_id e = None
     ∨ ∃ c, 1 ≤ c ≤ 100
            ∧ Generator.ad_campaign_id e
              = Some ("campaign_" +:+ pretty c)%string).

Definition well_formed (e : Generator.ShopperEvent) : Prop :=
  in_domains e ∧ in_ranges e ∧ well_identified e.

(** The enriched frame of generated events whose documents are the lines
    of the input of [extract_from_s3]. *)
Definition enriched_batch (cast : string → option Timestamp)
    (batch : list Generator.ShopperEvent) : list EnrichedRow :=
  events (transform_events
            (extract_from_s3 cast (Generator.to_json <$> batch))).

(** The session metric of [row_purchase] alone. *)
Definition metric_s1 : SessionMetric :=
  mkSessionMetric (Some "u1") (Some "s1") (Some (mkDate 2024 6 1))
    1 (Some 1) (Some 100%float) 1 (Some "mobile").

(** * Properties *)

Lemma sum_Z_cons x col : sum_Z (x :: col) = x + sum_Z col.
Proof. reflexivity. Qed.

Lemma sum_Z_zero {A} (l : list A) : sum_Z ((λ _, 0) <$> l) = 0.
Proof. induction l as [|a l IH]; [done|]. by rewrite fmap_cons, sum_Z_cons, IH. Qed.

Lemma sum_Z_plus {A} (f g : A → Z) (l : list A) :
  sum_Z ((λ a, f a + g a) <$> l) = sum_Z (f <$> l) + sum_Z (g <$> l).
Proof.
  induction l as [|a l IH]; [done|].
  rewrite !fmap_cons, !sum_Z_cons, IH. lia.
Qed.

(** ** Distinct values and groups *)

Section grouping.
Context {K A : Type} `{EqDecision K}.
Implicit Types (l : list K) (df : list A) (key : A → K).

Lemma elem_of_distinct l k : k ∈ F.distinct l ↔ k ∈ l.
Proof.
  induction l as [|k' l IH]; simpl; [done|].
  rewrite !elem_of_cons, list_elem_of_filter, IH.
  destruct (decide (k = k')); naive_solver.
Qed.

Lemma NoDup_distinct l : NoDup (F.distinct l).
Proof.
  induction l as [|k l IH]; simpl; [constructor|].
  constructor; [|by apply NoDup_filter].
  rewrite list_elem_of_filter. naive_solver.
Qed.

Lemma distinct_Permutation l l' : l ≡ₚ l' → F.distinct l ≡ₚ F.distinct l'.
Proof.
  intros Hp. apply NoDup_Permutation; [apply NoDup_distinct..|].
  intros k. by rewrite !elem_of_distinct, Hp.
Qed.

Lemma count_matching_absent l k :
  k ∉ l → sum_Z ((λ k', if decide (k = k') then 1 else 0) <$> l) = 0.
Proof.
  induction l as [|k' l IH]; [done|].
  rewrite not_elem_of_cons, fmap_cons, sum_Z_cons. intros [Hne Hnotin].
  by rewrite decide_False, IH.
Qed.

(** A row falls in the group of exactly one key of a duplicate-free key
    list that holds its key. *)
Lemma count_matching_key l k :
  NoDup l → k ∈ l →
  sum_Z ((λ k', if decide (k = k') then 1 else 0) <$> l) = 1.
Proof.
  induction 1 as [|k' l Hnotin Hnd IH]; [by intros ?%elem_of_nil|].
  rewrite elem_of_cons, fmap_cons, sum_Z_cons. intros Hin.
  destruct (decide (k = k')) as [->|Hne].
  - by rewrite count_matching_absent.
  - destruct Hin as [?|Hin]; [done|]. by rewrite IH.
Qed.

Lemma group_sizes_sum key l df :
  NoDup l → (∀ r, r ∈ df → key r ∈ l) →
  sum_Z ((λ k, F.count (filter (λ r, key r = k) df)) <$> l)
  = F.count df.
Proof.
  intros Hnd. unfold F.count.
  induction df as [|r df IH]; intros Hkeys.
  - apply sum_Z_zero.
  - trans (sum_Z ((λ k, (if decide (key r = k) then 1 else 0)
              + Z.of_nat (length (filter (λ r0, key r0 = k) df))) <$> l)).
    { f_equal. apply list_fmap_ext. intros i k _.
      rewrite filter_cons. destruct (decide (key r = k)); simpl length; lia. }
    rewrite sum_Z_plus, count_matching_key, IH; [simpl length; lia| |done|].
    + intros r' Hr'. apply Hkeys. by right.
    + apply Hkeys. by left.
Qed.

Lemma groupBy_sizes_sum key df :
  sum_Z ((λ g, F.count g.2) <$> F.groupBy key df) = F.count df.
Proof.
  unfold F.groupBy. rewrite <-list_fmap_compose.
  apply (group_sizes_sum key); [apply NoDup_distinct|].
  intros r Hr. apply elem_of_distinct, list_elem_of_fmap. eauto.
Qed.

Lemma elem_of_groupBy key df k rows :
  (k, rows) ∈ F.groupBy key df ↔
  rows = filter (λ r, key r = k) df ∧ ∃ r, r ∈ df ∧ key r = k.
Proof.
  unfold F.groupBy. rewrite list_elem_of_fmap. split.
  - intros (k' & [= -> ->] & Hk).
    apply elem_of_distinct, list_elem_of_fmap in Hk. naive_solver.
  - intros (-> & r & Hr & <-). eexists; split; [done|].
    apply elem_of_distinct, list_elem_of_fmap. eauto.
Qed.

(** Every group holds a row. *)
Lemma groupBy_nonempty key df k rows :
  (k, rows) ∈ F.groupBy key df → rows ≠ [].
Proof.
  rewrite elem_of_groupBy. intros (-> & r & Hr & Hk) Hnil.
  assert (r ∈ filter (λ r0, key r0 = k) df) as Hin
    by (apply list_elem_of_filter; done).
  rewrite Hnil in Hin. by apply elem_of_nil in Hin.
Qed.

(** The groups of a permuted frame are the groups of the frame, each
    permuted, under any aggregate that does not see the order. *)
Lemma groupBy_Permutation {B} (agg : K * list A → B) key df df' :
  (∀ k rows rows', rows ≡ₚ rows' → agg (k, rows) = agg (k, rows')) →
  df ≡ₚ df' →
  agg <$> F.groupBy key df ≡ₚ agg <$> F.groupBy key df'.
Proof.
  intros Hagg Hp. unfold F.groupBy. rewrite <-!list_fmap_compose.
  trans ((agg ∘ (λ k, (k, filter (λ r, key r = k) df')))
           <$> F.distinct (key <$> df)).
  - erewrite list_fmap_ext; [reflexivity|]. intros i k _. simpl.
    apply Hagg. by rewrite Hp.
  - apply fmap_Permutation, distinct_Permutation. by rewrite Hp.
Qed.

End grouping.

(** ** The aggregates *)

Lemma non_null_Some {A B} (f : A → B) (rows : list A) :
  F.non_null ((λ e, Some (f e)) <$> rows) = f <$> rows.
Proof.
  unfold F.non_null. induction rows as [|r rows IH]; csimpl; [done|].
  by f_equal.
Qed.

(** On a column without null, [sum] is the plain sum, and is null only on
    the empty column. *)
Lemma sum_long_Some {A} (f : A → Z) (rows : list A) :
  rows ≠ [] →
  F.sum_long ((λ e, Some (f e)) <$> rows) = Some (sum_Z (f <$> rows)).
Proof.
  intros Hne. unfold F.sum_long. rewrite non_null_Some.
  destruct rows; [done|]. by rewrite fmap_cons.
Qed.

Lemma sum_Z_Permutation (l l' : list Z) : l ≡ₚ l' → sum_Z l = sum_Z l'.
Proof.
  induction 1 as [|x l l' _ IH|x y l|l l' l'' _ IH1 _ IH2];
    rewrite ?sum_Z_cons; [done|lia|lia|congruence].
Qed.

Lemma non_null_Permutation {A} (col col' : list (option A)) :
  col ≡ₚ col' → F.non_null col ≡ₚ F.non_null col'.
Proof. unfold F.non_null. by intros ->. Qed.

Lemma Permutation_nil_cons_iff {A} (l l' : list A) :
  l ≡ₚ l' → l = [] ↔ l' = [].
Proof.
  intros Hp. split; intros ->.
  - by apply Permutation_nil_l in Hp.
  - by apply Permutation_nil_r in Hp.
Qed.

Lemma sum_long_Permutation (col col' : list (option Z)) :
  col ≡ₚ col' → F.sum_long col = F.sum_long col'.
Proof.
  intros Hp%non_null_Permutation. unfold F.sum_long.
  pose proof (Permutation_nil_cons_iff _ _ Hp) as Hnil.
  pose proof (sum_Z_Permutation _ _ Hp) as Hsum. unfold sum_Z in Hsum.
  destruct (F.non_null col), (F.non_null col'); try done.
  - by destruct Hnil as [Hnil _]; specialize (Hnil eq_refl).
  - by destruct Hnil as [_ Hnil]; specialize (Hnil eq_refl).
  - by rewrite Hsum.
Qed.

Lemma countDistinct_Permutation {K} `{EqDecision K}
    (col col' : list (option K)) :
  col ≡ₚ col' → F.countDistinct col = F.countDistinct col'.
Proof.
  intros Hp%non_null_Permutation%distinct_Permutation.
  unfold F.countDistinct. by rewrite Hp.
Qed.

(** ** The derived columns *)

Lemma is_purchase_bit (r : Row) :
  is_purchase (add_derived_columns r) = 0
  ∨ is_purchase (add_derived_columns r) = 1.
Proof.
  simpl. destruct (event_type r) as [s|]; simpl; [|by left].
  destruct (bool_decide (s = "purchase"%string)); auto.
Qed.

Lemma sum_is_purchase_bounds (rows : list EnrichedRow) :
  Forall (λ e, is_purchase e = 0 ∨ is_purchase e = 1) rows →
  0 ≤ sum_Z (is_purchase <$> rows) ≤ F.count rows.
Proof.
  unfold F.count. induction 1 as [|e rows He _ IH]; [done|].
  rewrite fmap_cons, sum_Z_cons. simpl length. lia.
Qed.

Lemma Qdiv_unit_interval (p v : Z) :
  0 ≤ p ≤ v → 1 ≤ v → (0 <= inject_Z p / inject_Z v <= 1)%Q.
Proof.
  intros Hp Hv. destruct v as [|v|v]; [lia| |lia].
  unfold Qle, Qdiv, Qmult, Qinv, inject_Z; simpl. lia.
Qed.

(** The rows of a product group of the transformed frame, and what the
    aggregate makes of them. *)
Lemma elem_of_product_metrics (raw_df : list Row) (m : ProductMetric) :
  m ∈ product_metrics (transform_events raw_df) →
  ∃ rows, rows ≠ []
    ∧ Forall (λ e, is_purchase e = 0 ∨ is_purchase e = 1) rows
    ∧ total_views m = F.count rows
    ∧ total_purchases m = Some (sum_Z (is_purchase <$> rows))
    ∧ conversion_rate m
      = conversion_rate_col (total_views m) (total_purchases m).
Proof.
  simpl. unfold product_metrics_of. rewrite list_elem_of_fmap.
  intros ([[[p c] d] rows] & -> & Hg). exists rows.
  pose proof (groupBy_nonempty _ _ _ _ Hg) as Hne.
  apply elem_of_groupBy in Hg as (Hrows & _).
  split; [done|]. split; [|by rewrite <-sum_long_Some].
  rewrite Hrows. apply Forall_forall. intros e He.
  apply list_elem_of_filter in He as [_ He].
  apply list_elem_of_fmap in He as (r & -> & _). apply is_purchase_bit.
Qed.

(** ** Keys of the aggregated frames *)

Lemma session_metric_keys (df : list EnrichedRow) :
  session_key_of <$> session_metrics_of df = F.distinct (session_key <$> df).
Proof.
  unfold session_metrics_of, F.groupBy. rewrite <-!list_fmap_compose.
  rewrite <-(list_fmap_id (F.distinct _)) at 2.
  apply list_fmap_ext. by intros i [[u s] d] _.
Qed.

Lemma product_metric_keys (df : list EnrichedRow) :
  product_key_of <$> product_metrics_of df = F.distinct (product_key <$> df).
Proof.
  unfold product_metrics_of, F.groupBy. rewrite <-!list_fmap_compose.
  rewrite <-(list_fmap_id (F.distinct _)) at 2.
  apply list_fmap_ext. by intros i [[p c] d] _.
Qed.

(** ** Running the effects *)

(** What [validate_data_quality] does to the world, step by step. *)
Lemma validate_data_quality_run (df : list EnrichedRow) (w : World) :
  validate_data_quality df w =
  let null_user_ids :=
    F.count (filter (λ r, user_id (raw r) = None) df) in
  let out :=
    stdout w ++
    (if decide (null_user_ids > 0)
     then ["Warning: " +:+ pretty null_user_ids
           +:+ " records with null user_id"]
     else []) in
  if decide (F.count df = 0)
  then (mkWorld out (redshift w),
        inl (ValueError "No records found in dataset"))
  else (mkWorld (out ++ ["Data quality check passed: "
                         +:+ pretty (F.count df) +:+ " records processed"])
          (redshift w), inr ()).
Proof.
  assert (DataFrame.filter (λ r, F.isNull (user_id (raw r))) df
          = filter (λ r, user_id (raw r) = None) df) as Hnull.
  { unfold DataFrame.filter. apply list_filter_iff. intros e.
    unfold F.isNull. destruct (user_id (raw e)); naive_solver. }
  unfold validate_data_quality, when_. rewrite Hnull. cbv zeta.
  destruct w as [out tables].
  destruct (decide (_ > 0)), (decide (F.count df = 0));
    unfold mbind, Py_bind, print, raise, mret, Py_ret; simpl;
    by rewrite ?app_nil_r.
Qed.

Lemma count_events (cast : string → option Timestamp)
    (s3_input : list JsonEvent) :
  F.count (events (transform_events (extract_from_s3 cast s3_input)))
  = Z.of_nat (length s3_input).
Proof. unfold F.count, extract_from_s3; simpl. by rewrite !length_fmap. Qed.


(** * The claims *)

(** C2: [conversion_rate] is [total_purchases / total_views] where
    [total_views > 0] and [0] where [total_views] is [0] or less; on every
    record of the product metrics it is a number (not null) between [0]
    and [1]. *)
Theorem conversion_rate_guarded :
  (∀ v p, 0 < v →
     conversion_rate_col v (Some p) = Some (inject_Z p / inject_Z v)%Q)
  ∧ (∀ v p, v ≤ 0 → conversion_rate_col v p = Some 0%Q)
  ∧ (∀ raw_df m, m ∈ product_metrics (transform_events raw_df) →
       conversion_rate m
       = conversion_rate_col (total_views m) (total_purchases m)
       ∧ ∃ r, conversion_rate m = Some r ∧ (0 <= r <= 1)%Q).
Proof.
  split; [|split].
  - intros v p Hv. unfold conversion_rate_col; simpl.
    rewrite (proj2 (Z.ltb_lt 0 v) Hv); simpl.
    by rewrite decide_False by lia.
  - intros v p Hv. unfold conversion_rate_col; simpl.
    by rewrite (proj2 (Z.ltb_ge 0 v) Hv).
  - intros raw_df m (rows & Hne & Hbits & Hviews & Hpurch & Hrate)
      %elem_of_product_metrics.
    split; [done|].
    pose proof (sum_is_purchase_bounds rows Hbits) as Hb.
    assert (1 ≤ F.count rows) as Hpos
      by (unfold F.count; destruct rows; [done|simpl length; lia]).
    exists (inject_Z (sum_Z (is_purchase <$> rows))
            / inject_Z (F.count rows))%Q.
    split; [|by apply Qdiv_unit_interval].
    rewrite Hrate, Hviews, Hpurch. unfold conversion_rate_col; simpl.
    rewrite (proj2 (Z.ltb_lt 0 (F.count rows))) by lia; simpl.
    by rewrite decide_False by lia.
Qed.

(** C4: the [total_events] of the session metrics add up to the number of
    rows of the frame they are computed from. *)
Theorem session_total_events_sum :
  (∀ transformed_df : list EnrichedRow,
     sum_Z (total_events <$> session_metrics_of transformed_df)
     = Z.of_nat (length transformed_df))
  ∧ (∀ raw_df : list Row,
       sum_Z (total_events <$> session_metrics (transform_events raw_df))
       = Z.of_nat (length raw_df)).
Proof.
  change (
    (∀ transformed_df : list EnrichedRow,
       sum_Z (total_events <$> session_metrics_of transformed_df)
       = F.count transformed_df)
    ∧ (∀ raw_df : list Row,
         sum_Z (total_events <$> session_metrics (transform_events raw_df))
         = F.count raw_df)).
  assert (∀ df, sum_Z (total_events <$> session_metrics_of df) = F.count df)
    as Hsum.
  { intros df. unfold session_metrics_of. rewrite <-list_fmap_compose.
    rewrite <-(groupBy_sizes_sum session_key df). f_equal.
    apply list_fmap_ext. by intros i [[[u s] d] rows] _. }
  split; [done|]. intros raw_df. simpl. rewrite Hsum.
  unfold F.count. by rewrite length_fmap.
Qed.

(** C5: the [total_views] of the product metrics add up to the number of
    rows of the frame they are computed from. *)
Theorem product_total_views_sum :
  (∀ transformed_df : list EnrichedRow,
     sum_Z (total_views <$> product_metrics_of transformed_df)
     = Z.of_nat (length transformed_df))
  ∧ (∀ raw_df : list Row,
       sum_Z (total_views <$> product_metrics (transform_events raw_df))
       = Z.of_nat (length raw_df)).
Proof.
  change (
    (∀ transformed_df : list EnrichedRow,
       sum_Z (total_views <$> product_metrics_of transformed_df)
       = F.count transformed_df)
    ∧ (∀ raw_df : list Row,
         sum_Z (total_views <$> product_metrics (transform_events raw_df))
         = F.count raw_df)).
  assert (∀ df, sum_Z (total_views <$> product_metrics_of df) = F.count df)
    as Hsum.
  { intros df. unfold product_metrics_of. rewrite <-list_fmap_compose.
    rewrite <-(groupBy_sizes_sum product_key df). f_equal.
    apply list_fmap_ext. by intros i [[[p c] d] rows] _. }
  split; [done|]. intros raw_df. simpl. rewrite Hsum.
  unfold F.count. by rewrite length_fmap.
Qed.

(** C8: on the empty frame the derived columns, the session metrics and
    the product metrics are the empty frame; nothing is raised, the three
    being total functions. *)
Theorem transform_events_empty :
  add_derived_columns <$> [] = []
  ∧ session_metrics_of [] = []
  ∧ product_metrics_of [] = []
  ∧ transform_events [] = mkTransformed [] [] [].
Proof. done. Qed.

(** C10: every record of the product metrics has [total_views >= 1] and
    [0 <= total_purchases <= total_views], so its [conversion_rate] is the
    quotient: the [otherwise(0)] branch is not taken. *)
Theorem product_metric_counts (raw_df : list Row) (m : ProductMetric) :
  m ∈ product_metrics (transform_events raw_df) →
  1 ≤ total_views m
  ∧ ∃ p, total_purchases m = Some p ∧ 0 ≤ p ≤ total_views m
      ∧ conversion_rate m = F.div (Some p) (Some (total_views m)).
Proof.
  intros (rows & Hne & Hbits & Hviews & Hpurch & Hrate)
    %elem_of_product_metrics.
  pose proof (sum_is_purchase_bounds rows Hbits) as Hb.
  assert (1 ≤ F.count rows) as Hpos
    by (unfold F.count; destruct rows; [done|simpl length; lia]).
  split; [lia|]. eexists. split; [done|]. split; [lia|].
  rewrite Hrate, Hpurch. unfold conversion_rate_col, F.gt_lit; simpl.
  by rewrite (proj2 (Z.ltb_lt 0 (total_views m))) by lia.
Qed.

(** C9, as the code has it: permuting the frame permutes the session
    metrics up to two columns: [device_type], the result of [first], and
    [session_revenue], a binary64 sum that rounds in the order of the
    rows. *)
Theorem session_metrics_permutation (df df' : list EnrichedRow) :
  df ≡ₚ df' →
  without_device_and_revenue <$> session_metrics_of df
    ≡ₚ without_device_and_revenue <$> session_metrics_of df'.
Proof.
  intros Hp. unfold session_metrics_of. rewrite <-!list_fmap_compose.
  apply groupBy_Permutation; [|done].
  intros [[u s] d] rows rows' Hrows.
  unfold without_device_and_revenue; simpl. f_equal.
  - unfold F.count. by rewrite Hrows.
  - apply sum_long_Permutation. by rewrite Hrows.
  - apply countDistinct_Permutation. by rewrite Hrows.
Qed.

(** C9, as stated, fails on [frame_ascending] and [frame_descending]: the
    two frames are permutations of each other and their one session has
    the [session_revenue] [0.6000000000000001] in the first and [0.6] in
    the second. *)
Lemma session_revenue_follows_order :
  ¬ (frame_ascending ≡ₚ frame_descending →
     without_device_type <$> session_metrics_of frame_ascending
       ≡ₚ without_device_type <$> session_metrics_of frame_descending).
Proof.
  intros Hclaim.
  assert (frame_ascending ≡ₚ frame_descending) as Hp.
  { change frame_descending with (rev frame_ascending).
    apply Permutation_rev. }
  specialize (Hclaim Hp). vm_compute in Hclaim.
  apply Permutation_length_1 in Hclaim.
  apply (f_equal (λ m, match session_revenue m with
                       | Some x => PrimFloat.eqb x 0.6%float
                       | None => false
                       end)) in Hclaim.
  vm_compute in Hclaim. discriminate.
Qed.

(** C3: [validate_data_quality] raises exactly on the empty frame.  The
    rows with a null [user_id] are counted and the count is printed as a
    warning; the count has no part in the outcome. *)
Theorem validate_data_quality_outcome (df : list EnrichedRow) (w : World) :
  let total_records := F.count df in
  let null_user_ids :=
    Z.of_nat (length (filter (λ r, user_id (raw r) = None) df)) in
  let warning :=
    if decide (null_user_ids > 0)
    then ["Warning: " +:+ pretty null_user_ids
          +:+ " records with null user_id"]
    else [] in
  let passed :=
    "Data quality check passed: " +:+ pretty total_records
    +:+ " records processed" in
  ((validate_data_quality df w).2
   = inl (ValueError "No records found in dataset") ↔ total_records = 0)
  ∧ ((validate_data_quality df w).2 = inr () ↔ total_records ≠ 0)
  ∧ stdout (validate_data_quality df w).1
    = stdout w ++ warning ++ (if decide (total_records = 0) then [] else [passed])
  ∧ redshift (validate_data_quality df w).1 = redshift w.
Proof.
  rewrite validate_data_quality_run. unfold F.count. cbv zeta.
  destruct (decide (Z.of_nat (length df) = 0)) as [Hz|Hnz]; simpl;
    rewrite ?app_nil_r, <-?app_assoc;
    (split; [|split; [|done]]); split; intros; done.
Qed.

(** C6, as the code has it: [is_ad_driven] is [1] exactly where
    [ad_campaign_id] is not null, and [0] elsewhere; a campaign id that is
    the empty string counts as present. *)
Theorem is_ad_driven_iff_not_null (r : Row) :
  (is_ad_driven (add_derived_columns r) = 1 ↔ ad_campaign_id r ≠ None)
  ∧ (is_ad_driven (add_derived_columns r) = 0 ↔ ad_campaign_id r = None).
Proof. simpl. destruct (ad_campaign_id r); simpl; naive_solver. Qed.

(** C6, as stated, fails on [row_empty_campaign]: the flag is set although
    the campaign id is empty. *)
Lemma is_ad_driven_empty_campaign :
  ¬ (is_ad_driven (add_derived_columns row_empty_campaign) = 1
     ↔ ad_campaign_id row_empty_campaign ≠ None
       ∧ ad_campaign_id row_empty_campaign ≠ Some String.EmptyString).
Proof. intros [H _]. by destruct H. Qed.



(** What the pipeline makes of that batch: the row is enriched, with null
    [date] and [hour], aggregated and loaded. *)
Example not_a_date_is_loaded :
  let w := (run_etl Iso8601.parse [event_not_a_date] empty_world).1 in
  (λ e, (user_id (raw e), date e, hour e, is_purchase e))
    <$> events (redshift w)
  = [(Some "u1"%string, None, None, 1)]
  ∧ (λ m, (sm_user_id m, sm_date m, total_events m, session_revenue m))
      <$> session_metrics (redshift w)
    = [(Some "u1"%string, None, 1, Some 100%float)]
  ∧ last (stdout w) = Some "ETL pipeline completed successfully!"%string.
Proof. by vm_compute. Qed.

(** C7 fails on [source_resampled]: the event is a [page_view] with a
    revenue of [250]. *)
Theorem generator_revenue_on_page_view :
  let e := (Generator.generate_shopper_event source_resampled).1 in
  Generator.event_type e = "page_view"%string
  ∧ Generator.event_type e ≠ "purchase"%string
  ∧ Generator.revenue e = 250%Q
  ∧ (0 < Generator.revenue e)%Q.
Proof. by vm_compute. Qed.

(** * Worked examples and witnesses *)

Example extract_purchase :
  extract_from_s3 Iso8601.parse [event_purchase] = [row_purchase].
Proof. by vm_compute. Qed.

Example product_metrics_purchase :
  product_metrics (transform_events [row_purchase]) = [metric_p1].
Proof. by vm_compute. Qed.

(** A null [user_id] is reported and the check passes; the empty frame
    raises. *)
Example validate_null_user :
  validate_data_quality
    (events (transform_events [row_purchase; row_null_user])) empty_world
  = (mkWorld ["Warning: 1 records with null user_id";
              "Data quality check passed: 2 records processed"]%string
       (redshift empty_world), inr ()).
Proof. by vm_compute. Qed.

Example validate_empty :
  validate_data_quality [] empty_world
  = (empty_world, inl (ValueError "No records found in dataset")).
Proof. by vm_compute. Qed.


Lemma conversion_rate_guarded_witness :
  metric_p1 ∈ product_metrics (transform_events [row_purchase])
  ∧ conversion_rate metric_p1
    = conversion_rate_col (total_views metric_p1) (total_purchases metric_p1)
  ∧ ∃ r, conversion_rate metric_p1 = Some r ∧ (0 <= r <= 1)%Q.
Proof.
  assert (metric_p1 ∈ product_metrics (transform_events [row_purchase]))
    as Hin by (vm_compute; left).
  split; [exact Hin|].
  exact (proj2 (proj2 conversion_rate_guarded) [row_purchase] metric_p1 Hin).
Defined.

Lemma product_metric_counts_witness :
  metric_p1 ∈ product_metrics (transform_events [row_purchase])
  ∧ 1 ≤ total_views metric_p1
  ∧ ∃ p, total_purchases metric_p1 = Some p
         ∧ 0 ≤ p ≤ total_views metric_p1
         ∧ conversion_rate metric_p1
           = F.div (Some p) (Some (total_views metric_p1)).
Proof.
  assert (metric_p1 ∈ product_metrics (transform_events [row_purchase]))
    as Hin by (vm_compute; left).
  split; [exact Hin|].
  exact (product_metric_counts [row_purchase] metric_p1 Hin).
Defined.

Lemma session_metrics_permutation_witness :
  frame_ascending ≡ₚ frame_descending
  ∧ without_device_and_revenue <$> session_metrics_of frame_ascending
      ≡ₚ without_device_and_revenue <$> session_metrics_of frame_descending.
Proof.
  assert (frame_ascending ≡ₚ frame_descending) as Hp
    by (change frame_descending with (rev frame_ascending);
        apply Permutation_rev).
  split; [exact Hp|].
  exact (session_metrics_permutation _ _ Hp).
Defined.

(** * Further properties of the pipeline *)

(** ** Keys of the aggregated frames *)


(** X1: the session metrics hold one record per key: no two records share
    [(user_id, session_id, date)], and the keys are those of the rows. *)
Theorem session_metrics_one_per_key (df : list EnrichedRow) :
  NoDup (session_key_of <$> session_metrics_of df)
  ∧ ∀ k, k ∈ session_key_of <$> session_metrics_of df
         ↔ ∃ e, e ∈ df ∧ session_key e = k.
Proof.
  rewrite session_metric_keys. split; [apply NoDup_distinct|].
  intros k. rewrite elem_of_distinct, list_elem_of_fmap. naive_solver.
Qed.

(** X2: the product metrics hold one record per key: no two records share
    [(product_id, category, date)], and the keys are those of the rows. *)
Theorem product_metrics_one_per_key (df : list EnrichedRow) :
  NoDup (product_key_of <$> product_metrics_of df)
  ∧ ∀ k, k ∈ product_key_of <$> product_metrics_of df
         ↔ ∃ e, e ∈ df ∧ product_key e = k.
Proof.
  rewrite product_metric_keys. split; [apply NoDup_distinct|].
  intros k. rewrite elem_of_distinct, list_elem_of_fmap. naive_solver.
Qed.

(** ** Sums over the groups *)

Section group_sums.
Context {K A : Type} `{EqDecision K}.
Implicit Types (l : list K) (df : list A) (key : A → K).

Lemma pick_matching_absent l k (c : Z) :
  k ∉ l → sum_Z ((λ k', if decide (k = k') then c else 0) <$> l) = 0.
Proof.
  induction l as [|k' l IH]; [done|].
  rewrite not_elem_of_cons, fmap_cons, sum_Z_cons. intros [Hne Hnotin].
  by rewrite decide_False, IH.
Qed.

Lemma pick_matching_key l k (c : Z) :
  NoDup l → k ∈ l →
  sum_Z ((λ k', if decide (k = k') then c else 0) <$> l) = c.
Proof.
  induction 1 as [|k' l Hnotin Hnd IH]; [by intros ?%elem_of_nil|].
  rewrite elem_of_cons, fmap_cons, sum_Z_cons. intros Hin.
  destruct (decide (k = k')) as [->|Hne].
  - rewrite pick_matching_absent by done. lia.
  - destruct Hin as [?|Hin]; [done|]. by rewrite IH.
Qed.

Lemma group_sums_Z (f : A → Z) key l df :
  NoDup l → (∀ r, r ∈ df → key r ∈ l) →
  sum_Z ((λ k, sum_Z (f <$> filter (λ r, key r = k) df)) <$> l)
  = sum_Z (f <$> df).
Proof.
  intros Hnd. induction df as [|r df IH]; intros Hkeys.
  - apply sum_Z_zero.
  - trans (sum_Z ((λ k, (if decide (key r = k) then f r else 0)
              + sum_Z (f <$> filter (λ r0, key r0 = k) df)) <$> l)).
    { f_equal. apply list_fmap_ext. intros i k _.
      rewrite filter_cons. destruct (decide (key r = k)); [|lia].
      by rewrite fmap_cons, sum_Z_cons. }
    rewrite sum_Z_plus, pick_matching_key, IH, ?fmap_cons, ?sum_Z_cons;
      [done| |done|].
    + intros r' Hr'. apply Hkeys. by right.
    + apply Hkeys. by left.
Qed.

Lemma groupBy_sums_Z (f : A → Z) key df :
  sum_Z ((λ g, sum_Z (f <$> g.2)) <$> F.groupBy key df) = sum_Z (f <$> df).
Proof.
  unfold F.groupBy. rewrite <-list_fmap_compose.
  apply (group_sums_Z f key); [apply NoDup_distinct|].
  intros r Hr. apply elem_of_distinct, list_elem_of_fmap. eauto.
Qed.

End group_sums.

Lemma sum_long_default {A} (f : A → Z) (rows : list A) :
  default 0 (F.sum_long ((λ e, Some (f e)) <$> rows)) = sum_Z (f <$> rows).
Proof.
  destruct rows as [|r rows]; [done|]. by rewrite sum_long_Some.
Qed.

Lemma is_purchase_value (r : Row) :
  is_purchase (add_derived_columns r)
  = if decide (event_type r = Some "purchase"%string) then 1 else 0.
Proof.
  simpl. destruct (event_type r) as [s|]; simpl; [|done].
  destruct (decide (s = "purchase"%string)) as [->|Hne].
  - by rewrite decide_True.
  - rewrite bool_decide_eq_false_2 by done.
    rewrite decide_False; [done|congruence].
Qed.

Lemma sum_is_purchase (raw_df : list Row) :
  sum_Z (is_purchase <$> (add_derived_columns <$> raw_df))
  = Z.of_nat (length (purchase_rows raw_df)).
Proof.
  unfold purchase_rows, Row in *.
  induction raw_df as [|r raw_df IH]; [done|].
  rewrite !fmap_cons, sum_Z_cons, IH, filter_cons, is_purchase_value.
  destruct (decide (event_type r = Some "purchase"%string));
    simpl length; lia.
Qed.

(** X3: aggregation loses no purchase: the [purchases] of the session
    metrics and the [total_purchases] of the product metrics both add up
    to the number of rows whose [event_type] is [purchase]; a null
    [event_type] is not one. *)
Theorem purchases_conserved (raw_df : list Row) :
  sum_Z ((λ m, default 0 (purchases m))
           <$> session_metrics (transform_events raw_df))
  = Z.of_nat (length (purchase_rows raw_df))
  ∧ sum_Z ((λ m, default 0 (total_purchases m))
             <$> product_metrics (transform_events raw_df))
    = Z.of_nat (length (purchase_rows raw_df)).
Proof.
  unfold transform_events. cbv zeta.
  cbn [session_metrics product_metrics].
  unfold session_metrics_of, product_metrics_of.
  rewrite <-!list_fmap_compose, <-sum_is_purchase. split.
  - rewrite <-(groupBy_sums_Z is_purchase session_key). f_equal.
    apply list_fmap_ext. intros i [[[u s] d] rows] _. apply sum_long_default.
  - rewrite <-(groupBy_sums_Z is_purchase product_key). f_equal.
    apply list_fmap_ext. intros i [[[p c] d] rows] _. apply sum_long_default.
Qed.


(** ** The records of the aggregated frames *)

Lemma length_distinct_le {K} `{EqDecision K} (l : list K) :
  (length (F.distinct l) ≤ length l)%nat.
Proof.
  induction l as [|k l IH]; simpl; [done|].
  pose proof (length_filter (λ k', k' ≠ k) (F.distinct l)). lia.
Qed.

Lemma length_non_null_le {A} (col : list (option A)) :
  (length (F.non_null col) ≤ length col)%nat.
Proof.
  unfold F.non_null. induction col as [|[v|] col IH]; csimpl; lia.
Qed.

(** The rows of a session group of the transformed frame, and what the
    aggregate makes of them. *)
Lemma elem_of_session_metrics (raw_df : list Row) (m : SessionMetric) :
  m ∈ session_metrics (transform_events raw_df) →
  ∃ rows, rows ≠ []
    ∧ rows = filter (λ e, session_key e = session_key_of m)
               (add_derived_columns <$> raw_df)
    ∧ m = session_agg (session_key_of m, rows).
Proof.
  unfold transform_events. cbv zeta. cbn [session_metrics].
  unfold session_metrics_of. rewrite list_elem_of_fmap.
  intros ([[[u s] d] rows] & -> & Hg). exists rows.
  pose proof (groupBy_nonempty _ _ _ _ Hg) as Hne.
  by apply elem_of_groupBy in Hg as (Hrows & _).
Qed.

Lemma elem_of_product_metrics_rows (raw_df : list Row) (m : ProductMetric) :
  m ∈ product_metrics (transform_events raw_df) →
  ∃ rows, rows ≠ []
    ∧ rows = filter (λ e, product_key e = product_key_of m)
               (add_derived_columns <$> raw_df)
    ∧ m = product_agg (product_key_of m, rows).
Proof.
  unfold transform_events. cbv zeta. cbn [product_metrics].
  unfold product_metrics_of. rewrite list_elem_of_fmap.
  intros ([[[p c] d] rows] & -> & Hg). exists rows.
  pose proof (groupBy_nonempty _ _ _ _ Hg) as Hne.
  by apply elem_of_groupBy in Hg as (Hrows & _).
Qed.

Lemma Forall_is_purchase_bit (raw_df : list Row) (P : EnrichedRow → Prop)
    `{∀ e, Decision (P e)} :
  Forall (λ e, is_purchase e = 0 ∨ is_purchase e = 1)
    (filter P (add_derived_columns <$> raw_df)).
Proof.
  apply Forall_forall. intros e He.
  apply list_elem_of_filter in He as [_ He].
  apply list_elem_of_fmap in He as (r & -> & _). apply is_purchase_bit.
Qed.

(** X5: every record of the session metrics counts at least one event;
    its [purchases] is a number between [0] and [total_events], and so is
    its [unique_products_viewed]. *)
Theorem session_metric_counts (raw_df : list Row) (m : SessionMetric) :
  m ∈ session_metrics (transform_events raw_df) →
  1 ≤ total_events m
  ∧ (∃ p, purchases m = Some p ∧ 0 ≤ p ≤ total_events m)
  ∧ 0 ≤ unique_products_viewed m ≤ total_events m.
Proof.
  intros (rows & Hne & Hrows & Hm)%elem_of_session_metrics.
  destruct m as [u s d n p rev uniq dev]. simpl in *.
  injection Hm as -> -> -> ->.
  assert (1 ≤ F.count rows) as Hpos
    by (unfold F.count; destruct rows; [done|simpl length; lia]).
  split; [done|]. split.
  - rewrite sum_long_Some by done. eexists. split; [done|].
    apply sum_is_purchase_bounds. rewrite Hrows.
    apply Forall_is_purchase_bit.
  - unfold F.countDistinct, F.count.
    pose proof (length_distinct_le
                  (F.non_null ((λ e, product_id (raw e)) <$> rows))).
    pose proof (length_non_null_le ((λ e, product_id (raw e)) <$> rows)).
    rewrite length_fmap in *. lia.
Qed.

(** ** Nulls *)

Lemma non_null_nil {A B} (c : A → option B) (rows : list A) :
  F.non_null (c <$> rows) = [] ↔ ∀ r, r ∈ rows → c r = None.
Proof.
  unfold F.non_null. induction rows as [|r rows IH]; csimpl.
  - split; [by intros _ r ?%elem_of_nil|done].
  - destruct (c r) as [v|] eqn:Hc; simpl.
    + split; [done|]. intros Hall. specialize (Hall r). rewrite Hc in Hall.
      by discriminate Hall; left.
    + rewrite IH. split.
      * intros Hall r' [->|Hr']%elem_of_cons; auto.
      * intros Hall r' Hr'. apply Hall. by right.
Qed.

(** X7: the nullable aggregates of a product metric are null exactly when
    their column is null on every row of the group: [avg_price] for
    [price], [total_revenue] for [revenue]. *)
Theorem product_metric_nulls (raw_df : list Row) (m : ProductMetric) :
  m ∈ product_metrics (transform_events raw_df) →
  (avg_price m = None ↔
     ∀ r, r ∈ raw_df →
          product_key (add_derived_columns r) = product_key_of m →
          price r = None)
  ∧ (total_revenue m = None ↔
       ∀ r, r ∈ raw_df →
            product_key (add_derived_columns r) = product_key_of m →
            revenue r = None).
Proof.
  intros (rows & Hne & Hrows & Hm)%elem_of_product_metrics_rows.
  assert (∀ (c : Row → option float),
            F.non_null ((λ e, c (raw e)) <$> rows) = [] ↔
            ∀ r, r ∈ raw_df →
                 product_key (add_derived_columns r) = product_key_of m →
                 c r = None) as Hnull.
  { intros c. rewrite non_null_nil, Hrows. split.
    - intros Hall r Hr Hk. apply (Hall (add_derived_columns r)).
      apply list_elem_of_filter. split; [done|].
      apply list_elem_of_fmap. eauto.
    - intros Hall e [Hk (r & -> & Hr)%list_elem_of_fmap]%list_elem_of_filter.
      by apply Hall. }
  rewrite <-!Hnull, Hm. destruct (product_key_of m) as [[p c] d]. simpl.
  unfold F.avg, F.sum_double. split.
  - by destruct (F.non_null ((λ e, price (raw e)) <$> rows)).
  - by destruct (F.non_null ((λ e, revenue (raw e)) <$> rows)).
Qed.

(** X8: up to [total_revenue] and [avg_price], two binary64 aggregates
    that round in the order of the rows, the product metrics do not depend
    on that order: permuting the frame permutes the records with their
    keys, [total_views], [total_purchases] and [conversion_rate]. *)
Theorem product_metrics_permutation (df df' : list EnrichedRow) :
  df ≡ₚ df' →
  without_double_sums <$> product_metrics_of df
    ≡ₚ without_double_sums <$> product_metrics_of df'.
Proof.
  intros Hp. unfold product_metrics_of. rewrite <-!list_fmap_compose.
  apply groupBy_Permutation; [|done].
  intros [[p c] d] rows rows' Hrows. unfold without_double_sums; simpl.
  assert (F.sum_long ((λ e, Some (is_purchase e)) <$> rows)
          = F.sum_long ((λ e, Some (is_purchase e)) <$> rows')) as Hsum
    by (apply sum_long_Permutation; by rewrite Hrows).
  rewrite Hsum. unfold F.count. by rewrite (Permutation_length Hrows).
Qed.

(** ** Loading and running *)

Lemma load_to_redshift_run (dataframes : Transformed) (w : World) :
  load_to_redshift dataframes w
  = (mkWorld
       (stdout w ++
        ["Loaded " +:+ pretty (F.count (events dataframes))
         +:+ " records to events";
         "Loaded " +:+ pretty (F.count (session_metrics dataframes))
         +:+ " records to session_metrics";
         "Loaded " +:+ pretty (F.count (product_metrics dataframes))
         +:+ " records to product_metrics"]%string)
       (append_tables (redshift w) dataframes), inr ()).
Proof.
  destruct w as [out tables]. unfold load_to_redshift, append_tables.
  unfold mbind, Py_bind, print, DataFrame.append_events,
    DataFrame.append_session_metrics, DataFrame.append_product_metrics.
  simpl. by rewrite <-!app_assoc.
Qed.

Lemma run_etl_run (cast : string → option Timestamp)
    (s3_input : list JsonEvent) (w : World) :
  s3_input ≠ [] →
  run_etl cast s3_input w
  = (mkWorld
       (stdout w
        ++ run_etl_lines (transform_events (extract_from_s3 cast s3_input)))
       (append_tables (redshift w)
          (transform_events (extract_from_s3 cast s3_input))), inr ()).
Proof.
  intros Hne. pose proof (count_events cast s3_input) as Hcount.
  unfold run_etl, run_etl_lines, null_user_warning.
  set (transformed := transform_events (extract_from_s3 cast s3_input)) in *.
  unfold mbind at 1 2 3, Py_bind, print at 1 2. cbv beta iota.
  rewrite validate_data_quality_run. cbv zeta.
  destruct (decide (F.count (events transformed) = 0)) as [Hz|Hnz].
  { rewrite Hcount in Hz. destruct s3_input; [done|simpl length in Hz; lia]. }
  unfold mbind at 1 2, Py_bind, print at 1. cbv beta iota.
  rewrite load_to_redshift_run. unfold print. simpl.
  by rewrite <-!app_assoc.
Qed.

Lemma run_etl_empty (cast : string → option Timestamp) (w : World) :
  run_etl cast [] w
  = (mkWorld (stdout w ++ ["Extracting data from S3...";
                           "Transforming data..."]%string) (redshift w),
     inl (ValueError "No records found in dataset")).
Proof.
  unfold run_etl. unfold mbind at 1 2 3, Py_bind, print at 1 2.
  cbv beta iota. rewrite validate_data_quality_run. simpl.
  by rewrite app_nil_r, <-app_assoc.
Qed.

(** X9: a run of [run_etl] stopped by the [ValueError] of the quality
    check has loaded nothing: the batch was empty, the warehouse is as it
    was and the two lines before the check are all that was printed. *)
Theorem run_etl_failure_loads_nothing
    (cast : string → option Timestamp) (s3_input : list JsonEvent)
    (w : World) :
  (run_etl cast s3_input w).2
  = inl (ValueError "No records found in dataset") →
  s3_input = []
  ∧ redshift (run_etl cast s3_input w).1 = redshift w
  ∧ stdout (run_etl cast s3_input w).1
    = stdout w ++ ["Extracting data from S3...";
                   "Transforming data..."]%string.
Proof.
  destruct (decide (s3_input = [])) as [->|Hne].
  - by rewrite run_etl_empty.
  - by rewrite run_etl_run.
Qed.

(** X10: a run of [run_etl] that completes has appended: the batch was
    not empty, each table of the warehouse is the table as it was followed
    by the rows computed from the batch, and the lines printed report the
    counts loaded. *)
Theorem run_etl_appends
    (cast : string → option Timestamp) (s3_input : list JsonEvent)
    (w : World) :
  (run_etl cast s3_input w).2 = inr () →
  let data := transform_events (extract_from_s3 cast s3_input) in
  s3_input ≠ []
  ∧ redshift (run_etl cast s3_input w).1 = append_tables (redshift w) data
  ∧ stdout (run_etl cast s3_input w).1 = stdout w ++ run_etl_lines data.
Proof.
  destruct (decide (s3_input = [])) as [->|Hne].
  - by rewrite run_etl_empty.
  - intros _. by rewrite run_etl_run.
Qed.

(** X11: the load is an append, not an upsert: running [run_etl] twice on
    the same batch leaves every row of the batch twice in the warehouse,
    so the keys of [session_metrics] are no longer unique there. *)
Theorem run_etl_twice_duplicates
    (cast : string → option Timestamp) (s3_input : list JsonEvent)
    (w : World) :
  s3_input ≠ [] →
  let data := transform_events (extract_from_s3 cast s3_input) in
  let w2 := (run_etl cast s3_input (run_etl cast s3_input w).1).1 in
  redshift w2 = append_tables (append_tables (redshift w) data) data
  ∧ ¬ NoDup (session_key_of <$> session_metrics (redshift w2)).
Proof.
  intros Hne. cbv zeta. rewrite !run_etl_run by done. simpl.
  split; [done|].
  set (new := session_metrics_of _).
  assert (new ≠ []) as Hnew.
  { subst new. unfold session_metrics_of, F.groupBy, extract_from_s3.
    destruct s3_input; [done|]. by rewrite !fmap_cons. }
  destruct new as [|m new]; [done|].
  rewrite !fmap_app, fmap_cons. intros Hnd.
  apply NoDup_app in Hnd as (_ & Hdisj & _).
  apply (Hdisj (session_key_of m)).
  - apply elem_of_app. right. by left.
  - by left.
Qed.


(** * Properties of the generator *)

(** ** Results of the random sources *)

Lemma post_ret {A} (a : A) (P : A → Prop) : P a → post (mret a) P.
Proof. by intros Ha s. Qed.

Lemma post_bind {A B} (m : Generator.Gen A) (k : A → Generator.Gen B)
    (Q : A → Prop) (P : B → Prop) :
  post m Q → (∀ a, Q a → post (k a) P) → post (m ≫= k) P.
Proof.
  intros Hm Hk s. unfold mbind, Generator.Gen_bind.
  specialize (Hm s). destruct (m s) as [a s']. by apply Hk.
Qed.

Lemma post_bind_any {A B} (m : Generator.Gen A) (k : A → Generator.Gen B)
    (P : B → Prop) :
  (∀ a, post (k a) P) → post (m ≫= k) P.
Proof. intros Hk. apply (post_bind m k (λ _, True)); [done|auto]. Qed.

Lemma randint_post (a b : Z) :
  a ≤ b → post (Generator.randint a b) (λ n, a ≤ n ≤ b).
Proof.
  intros Hab. apply post_bind_any. intros d. apply post_ret.
  pose proof (Z.mod_pos_bound (Z.of_N d) (b - a + 1)). lia.
Qed.

Lemma choice_post {A} (default : A) (seq : list A) :
  seq ≠ [] → post (Generator.choice default seq) (λ x, x ∈ seq).
Proof.
  intros Hne. apply post_bind_any. intros d. apply post_ret.
  apply list_elem_of_In, nth_In.
  assert (N.of_nat (length seq) ≠ 0%N) by (destruct seq; [done|simpl; lia]).
  pose proof (N.mod_upper_bound d (N.of_nat (length seq))). lia.
Qed.

Lemma random_post : post Generator.random (λ r, 0 <= r < 1)%Q.
Proof.
  apply post_bind_any. intros d. apply post_ret.
  pose proof (Z.mod_pos_bound (Z.of_N d) (2 ^ 53)) as Hmod.
  change (2 ^ 53) with 9007199254740992 in *.
  set (m := Z.of_N d mod 9007199254740992) in *.
  unfold Qle, Qlt, Qdiv, Qmult, Qinv, inject_Z; simpl. lia.
Qed.

Lemma uniform_post (a b : Q) :
  (a <= b)%Q → post (Generator.uniform a b) (λ x, a <= x <= b)%Q.
Proof.
  intros Hab. eapply post_bind; [apply random_post|].
  intros r [Hr0 Hr1]. apply post_ret. split; nra.
Qed.

(** Rounding to cents stays between whole bounds. *)
Lemma round2_range (lo hi : Z) (x : Q) :
  (inject_Z lo <= x <= inject_Z hi)%Q →
  (inject_Z lo <= Generator.round2 x <= inject_Z hi)%Q.
Proof.
  intros [Hlo Hhi]. unfold Generator.round2. cbv zeta.
  set (scaled := (x * 100)%Q).
  set (fl := Qfloor scaled).
  assert (inject_Z (lo * 100) <= scaled)%Q as Hlo'.
  { subst scaled. rewrite inject_Z_mult. change (inject_Z 100) with 100%Q.
    nra. }
  assert (scaled <= inject_Z (hi * 100))%Q as Hhi'.
  { subst scaled. rewrite inject_Z_mult. change (inject_Z 100) with 100%Q.
    nra. }
  assert (lo * 100 ≤ fl) as Hfl_lo.
  { rewrite <-(Qfloor_Z (lo * 100)). by apply Qfloor_resp_le. }
  assert (fl ≤ hi * 100) as Hfl_hi.
  { rewrite <-(Qfloor_Z (hi * 100)). by apply Qfloor_resp_le. }
  assert ((0 < scaled - inject_Z fl)%Q → fl + 1 ≤ hi * 100) as Hup.
  { intros Hrest. assert (inject_Z fl < inject_Z (hi * 100))%Q as Hlt by lra.
    rewrite <-Zlt_Qlt in Hlt. lia. }
  assert (∀ n, lo * 100 ≤ n ≤ hi * 100 →
               (inject_Z lo <= Qred (inject_Z n / 100) <= inject_Z hi)%Q)
    as Hcents.
  { intros n [Hn1 Hn2]. rewrite Qred_correct.
    unfold Qle, Qdiv, Qmult, Qinv, inject_Z; simpl. lia. }
  destruct (scaled - inject_Z fl ?= 1 # 2)%Q eqn:Hcmp.
  - apply Qeq_alt in Hcmp.
    destruct (Z.even fl); apply Hcents; [lia|].
    split; [lia|]. apply Hup. lra.
  - apply Hcents. lia.
  - apply Qgt_alt in Hcmp. apply Hcents.
    split; [lia|]. apply Hup. lra.
Qed.

(** ** The generated event *)

Lemma generate_shopper_event_post :
  post Generator.generate_shopper_event well_formed.
Proof.
  unfold Generator.generate_shopper_event.
  eapply post_bind; [by apply (randint_post 1000 99999)|]. intros n Hn.
  cbv zeta.
  apply post_bind_any; intros session_id.
  apply post_bind_any; intros event_id.
  apply post_bind_any; intros now.
  eapply post_bind; [by apply choice_post|]. intros event_type Hevent_type.
  eapply post_bind; [by apply (randint_post 1 10000)|]. intros p Hp.
  eapply post_bind; [by apply choice_post|]. intros category Hcategory.
  eapply post_bind; [by apply (uniform_post 10 500)|]. intros x Hx.
  eapply post_bind; [by apply choice_post|]. intros device Hdevice.
  apply post_bind_any; intros country.
  apply post_bind_any; intros city.
  apply post_bind_any; intros ip_address.
  apply post_bind_any; intros r.
  eapply (post_bind _ _ (λ ad, ad = None
            ∨ ∃ c, 1 ≤ c ≤ 100 ∧ ad = Some ("campaign_" +:+ pretty c)%string)).
  { destruct (Qlt_le_dec (7 # 10) r).
    - eapply post_bind; [by apply (randint_post 1 100)|]. intros c Hc.
      apply post_ret. right. by exists c.
    - apply post_ret. by left. }
  intros ad Had.
  apply post_bind_any; intros resampled.
  eapply (post_bind _ _ (λ y, 0 <= y <= 500)%Q).
  { destruct (decide (resampled = "purchase"%string)).
    - eapply post_bind; [by apply (uniform_post 0 500)|]. intros y Hy.
      apply post_ret. by apply (round2_range 0 500).
    - by apply post_ret. }
  intros revenue Hrevenue. apply post_ret.
  split; [done|]. split.
  - split; [|done]. by apply (round2_range 10 500).
  - split; [by exists n|]. split; [by exists p|done].
Qed.

(** X12: every generated event takes its [event_type], [category] and
    [device_type] from the lists of the generator: the values the pipeline
    and the expectation suite know. *)
Theorem generated_event_in_domains (s : Generator.Source) :
  in_domains (Generator.generate_shopper_event s).1.
Proof. apply generate_shopper_event_post. Qed.

(** X13: every generated event has a [price] between [10] and [500] and a
    [revenue] between [0] and [500]; neither is negative. *)
Theorem generated_event_in_ranges (s : Generator.Source) :
  in_ranges (Generator.generate_shopper_event s).1.
Proof. apply generate_shopper_event_post. Qed.

(** X14: every generated event has a [user_id] [user_n] with [n] in
    [1000..99999], a [product_id] [prod_p] with [p] in [1..10000], and an
    [ad_campaign_id] that is null or [campaign_c] with [c] in [1..100]. *)
Theorem generated_event_well_identified (s : Generator.Source) :
  well_identified (Generator.generate_shopper_event s).1.
Proof. apply generate_shopper_event_post. Qed.

Lemma generate_batch_events_post (count : nat) :
  post (Generator.generate_batch_events count)
    (λ batch, length batch = count ∧ Forall well_formed batch).
Proof.
  induction count as [|count IH]; simpl.
  - by apply post_ret.
  - eapply post_bind; [apply generate_shopper_event_post|]. intros e He.
    eapply post_bind; [apply IH|]. intros batch [Hlen Hall].
    apply post_ret. split; [simpl; lia|by constructor].
Qed.

(** X15: [generate_batch_events(count)] returns [count] events, each of
    them within the domains, ranges and formats of a generated event. *)
Theorem generate_batch_events_count (count : nat) (s : Generator.Source) :
  length (Generator.generate_batch_events count s).1 = count
  ∧ Forall well_formed (Generator.generate_batch_events count s).1.
Proof. apply generate_batch_events_post. Qed.


(** ** Generated events through the pipeline *)

Lemma Forall_enriched_batch (cast : string → option Timestamp)
    (batch : list Generator.ShopperEvent) (P : EnrichedRow → Prop) :
  (∀ e, e ∈ batch →
        ∀ t, P (add_derived_columns
                  (mkEvent (Some (Generator.event_id e))
                     (Some (Generator.user_id e))
                     (Some (Generator.session_id e)) t
                     (Some (Generator.event_type e))
                     (Some (Generator.product_id e))
                     (Some (Generator.category e))
                     (Some (double_of_decimal (Generator.price e)))
                     (Some (Generator.device_type e))
                     (Generator.ad_campaign_id e)
                     (Some (double_of_decimal (Generator.revenue e)))))) →
  Forall P (enriched_batch cast batch).
Proof.
  intros HP. unfold enriched_batch, transform_events, extract_from_s3.
  cbv zeta. cbn [events]. rewrite !Forall_fmap.
  apply Forall_forall. intros e He. by apply HP.
Qed.

Lemma campaign_not_empty (c : Z) :
  ("campaign_" +:+ pretty c)%string ≠ String.EmptyString.
Proof. done. Qed.

(** X17: on generated events the flag [is_ad_driven] is set exactly where
    the campaign id is neither null nor empty: the generator makes no
    empty campaign id. *)
Theorem generated_is_ad_driven
    (cast : string → option Timestamp) (count : nat) (s : Generator.Source) :
  Forall (λ row,
            is_ad_driven row = 1
            ↔ ad_campaign_id (raw row) ≠ None
              ∧ ad_campaign_id (raw row) ≠ Some String.EmptyString)
    (enriched_batch cast (Generator.generate_batch_events count s).1).
Proof.
  destruct (generate_batch_events_post count s) as [_ Hall].
  apply Forall_enriched_batch. intros e He t.
  rewrite Forall_forall in Hall.
  destruct (Hall e He) as (_ & _ & _ & _ & Had). simpl.
  destruct Had as [->|(c & _ & ->)]; simpl.
  - split; [done|]. by intros [? _].
  - split; [|done]. intros _. split; [done|].
    intros Hempty. injection Hempty as Hempty.
    by apply campaign_not_empty in Hempty.
Qed.

(** ** The ends of the conversion rate *)

Lemma Qdiv_ends (p v : Z) :
  1 ≤ v →
  ((inject_Z p / inject_Z v == 0)%Q ↔ p = 0)
  ∧ ((inject_Z p / inject_Z v == 1)%Q ↔ p = v).
Proof.
  intros Hv. destruct v as [|v|v]; [lia| |lia].
  unfold Qeq, Qdiv, Qmult, Qinv, inject_Z; simpl. lia.
Qed.

(** X19: the [conversion_rate] of a product metric is [0] exactly when no
    event of the group is a purchase, and [1] exactly when every event of
    the group is one. *)
Theorem conversion_rate_ends
    (raw_df : list Row) (m : ProductMetric) (rate : Q) :
  m ∈ product_metrics (transform_events raw_df) →
  conversion_rate m = Some rate →
  ((rate == 0)%Q ↔ total_purchases m = Some 0)
  ∧ ((rate == 1)%Q ↔ total_purchases m = Some (total_views m)).
Proof.
  intros (rows & Hne & Hbits & Hviews & Hpurch & Hrate)
    %elem_of_product_metrics.
  assert (1 ≤ total_views m) as Hpos.
  { rewrite Hviews. unfold F.count. destruct rows; [done|simpl length; lia]. }
  rewrite Hrate, Hpurch. unfold conversion_rate_col, F.gt_lit; simpl.
  rewrite (proj2 (Z.ltb_lt 0 (total_views m))) by lia. simpl.
  rewrite decide_False by lia. intros [= <-].
  destruct (Qdiv_ends (sum_Z (is_purchase <$> rows)) (total_views m) Hpos)
    as [H0 H1].
  rewrite H0, H1. split; split; congruence.
Qed.

(** ** Batches of the generator *)

(** X20: generating [n + m] events is generating [n] events and then [m]
    more from the sources as the first [n] left them. *)
Theorem generate_batch_events_app (n m : nat) (s : Generator.Source) :
  Generator.generate_batch_events (n + m) s
  = let '(first, s1) := Generator.generate_batch_events n s in
    let '(rest, s2) := Generator.generate_batch_events m s1 in
    (first ++ rest, s2).
Proof.
  revert s. induction n as [|n IH]; intros s.
  - simpl. unfold mret, Generator.Gen_ret.
    by destruct (Generator.generate_batch_events m s).
  - simpl. unfold mbind, Generator.Gen_bind, mret, Generator.Gen_ret.
    destruct (Generator.generate_shopper_event s) as [e s0].
    rewrite IH.
    destruct (Generator.generate_batch_events n s0) as [first s1].
    by destruct (Generator.generate_batch_events m s1) as [rest s2].
Qed.


(** ** Witnesses of the further properties *)

Lemma session_metric_counts_witness :
  metric_s1 ∈ session_metrics (transform_events [row_purchase])
  ∧ 1 ≤ total_events metric_s1
  ∧ (∃ p, purchases metric_s1 = Some p ∧ 0 ≤ p ≤ total_events metric_s1)
  ∧ 0 ≤ unique_products_viewed metric_s1 ≤ total_events metric_s1.
Proof.
  assert (metric_s1 ∈ session_metrics (transform_events [row_purchase]))
    as Hin by (vm_compute; left).
  split; [exact Hin|].
  exact (session_metric_counts [row_purchase] metric_s1 Hin).
Defined.

Lemma product_metric_nulls_witness :
  metric_p1 ∈ product_metrics (transform_events [row_purchase])
  ∧ (avg_price metric_p1 = None ↔
       ∀ r, r ∈ [row_purchase] →
            product_key (add_derived_columns r) = product_key_of metric_p1 →
            price r = None)
  ∧ (total_revenue metric_p1 = None ↔
       ∀ r, r ∈ [row_purchase] →
            product_key (add_derived_columns r) = product_key_of metric_p1 →
            revenue r = None).
Proof.
  assert (metric_p1 ∈ product_metrics (transform_events [row_purchase]))
    as Hin by (vm_compute; left).
  split; [exact Hin|].
  exact (product_metric_nulls [row_purchase] metric_p1 Hin).
Defined.

Lemma product_metrics_permutation_witness :
  let df := add_derived_columns <$> [row_purchase; row_page_view] in
  let df' := add_derived_columns <$> [row_page_view; row_purchase] in
  df ≡ₚ df'
  ∧ without_double_sums <$> product_metrics_of df
      ≡ₚ without_double_sums <$> product_metrics_of df'.
Proof.
  cbv zeta.
  assert (add_derived_columns <$> [row_purchase; row_page_view]
          ≡ₚ add_derived_columns <$> [row_page_view; row_purchase]) as Hp
    by (simpl; apply perm_swap).
  split; [exact Hp|].
  exact (product_metrics_permutation _ _ Hp).
Defined.

Lemma run_etl_failure_loads_nothing_witness :
  (run_etl Iso8601.parse [] empty_world).2
  = inl (ValueError "No records found in dataset")
  ∧ ([] : list JsonEvent) = []
  ∧ redshift (run_etl Iso8601.parse [] empty_world).1 = redshift empty_world
  ∧ stdout (run_etl Iso8601.parse [] empty_world).1
    = stdout empty_world ++ ["Extracting data from S3...";
                             "Transforming data..."]%string.
Proof.
  assert ((run_etl Iso8601.parse [] empty_world).2
          = inl (ValueError "No records found in dataset")) as Hraised
    by reflexivity.
  split; [exact Hraised|].
  exact (run_etl_failure_loads_nothing Iso8601.parse [] empty_world Hraised).
Defined.

Lemma run_etl_appends_witness :
  (run_etl Iso8601.parse [event_purchase] empty_world).2 = inr ()
  ∧ [event_purchase] ≠ []
  ∧ redshift (run_etl Iso8601.parse [event_purchase] empty_world).1
    = append_tables (redshift empty_world)
        (transform_events (extract_from_s3 Iso8601.parse [event_purchase]))
  ∧ stdout (run_etl Iso8601.parse [event_purchase] empty_world).1
    = stdout empty_world
      ++ run_etl_lines
           (transform_events (extract_from_s3 Iso8601.parse [event_purchase])).
Proof.
  assert ((run_etl Iso8601.parse [event_purchase] empty_world).2 = inr ())
    as Hdone by (vm_compute; reflexivity).
  split; [exact Hdone|].
  exact (run_etl_appends Iso8601.parse [event_purchase] empty_world Hdone).
Defined.

Lemma run_etl_twice_duplicates_witness :
  [event_purchase] ≠ []
  ∧ let data :=
      transform_events (extract_from_s3 Iso8601.parse [event_purchase]) in
    let w2 :=
      (run_etl Iso8601.parse [event_purchase]
         (run_etl Iso8601.parse [event_purchase] empty_world).1).1 in
    redshift w2
    = append_tables (append_tables (redshift empty_world) data) data
    ∧ ¬ NoDup (session_key_of <$> session_metrics (redshift w2)).
Proof.
  assert ([event_purchase] ≠ []) as Hne by discriminate.
  split; [exact Hne|].
  exact (run_etl_twice_duplicates Iso8601.parse [event_purchase] empty_world
           Hne).
Defined.

Lemma conversion_rate_ends_witness :
  metric_p1 ∈ product_metrics (transform_events [row_purchase])
  ∧ conversion_rate metric_p1 = Some 1%Q
  ∧ ((1 == 0)%Q ↔ total_purchases metric_p1 = Some 0)
  ∧ ((1 == 1)%Q ↔ total_purchases metric_p1 = Some (total_views metric_p1)).
Proof.
  assert (metric_p1 ∈ product_metrics (transform_events [row_purchase]))
    as Hin by (vm_compute; left).
  assert (conversion_rate metric_p1 = Some 1%Q) as Hrate by reflexivity.
  split; [exact Hin|]. split; [exact Hrate|].
  exact (conversion_rate_ends [row_purchase] metric_p1 1 Hin Hrate).
Defined.
